(** * profile-manager: the profile store and its lifecycle (pm.py)

    A shallow embedding of [pm.py].  The program is a small command-line
    tool: every invocation runs [ProfileManager.__init__] (which resolves
    the root directory and opens the SQLite database through peewee) and
    then one of the commands [set], [unset], [ls], [add], [rm], [config].

    Python exceptions are values of [exn]; code that reads or writes
    module-level globals, the file system, the database or the terminal
    is written in a state-and-exception monad [M S], where [S] is the
    state the code touches.  Dictionaries are [gmap]s with string keys.

    The commands work on the rows of the two tables ([Store]); the start
    of a run works on a [process]: environment, platform, directories,
    files and the two globals.  What peewee and SQLite do to the files is
    written out with the calls that [pm.py] makes; how the machine finds
    the directory of a path is a parameter ([Section Machine]). *)

From stdpp Require Import base option gmap strings list.
From Stdlib Require Import ZArith Ascii.

Local Open Scope string_scope.

(** ** Exceptions and the monad *)

(** The exceptions that the modelled code and the library calls it makes
    can raise. *)
Inductive exn : Type :=
  | KeyError (k : string)              (* d[k] on a dict without k *)
  | EOFError                           (* input() at end of input *)
  | IntegrityError (column : string)   (* NOT NULL constraint failed *)
  | DataError (column : string)        (* value of a type the column is never given *)
  | InterfaceError (msg : string)      (* deferred database used *)
  | OperationalError (msg : string)    (* sqlite could not do it *)
  | DatabaseError (msg : string).      (* sqlite read something that is no database *)

Definition M (S A : Type) : Type := S → (exn + A) * S.

Global Instance M_ret {S} : MRet (M S) := λ A (a : A) s, (inr a, s).

Global Instance M_bind {S} : MBind (M S) := λ A B (f : A → M S B) (m : M S A) s,
  match m s with
  | (inl e, s') => (inl e, s')
  | (inr a, s') => f a s'
  end.

Definition raise {S A} (e : exn) : M S A := λ s, (inl e, s).
Definition get {S} : M S S := λ s, (inr s, s).
Definition put {S} (s : S) : M S () := λ _, (inr (), s).

(** [d[k]]: subscripting a dict raises [KeyError] on a missing key. *)
Definition subscript {S V} (d : gmap string V) (k : string) : M S V :=
  match d !! k with
  | Some v => mret v
  | None => raise (KeyError k)
  end.

(** ** The process: globals, environment, file system *)

(** What a database file holds, as far as this program can tell: the
    journal mode stored in its header and the tables of its schema. *)
Record DbFile : Type := {
  journal_mode : string;
  tables : gset string;
}.

(** A regular file: a SQLite database (an empty file is one, with no
    table) or anything else, which SQLite refuses as a database. *)
Inductive file : Type :=
  | Database (f : DbFile)
  | Other.

(** [peewee.SqliteDatabase]: the file it is bound to ([None] while the
    database is deferred), the pragmas it applies to every connection
    and whether a connection is open. *)
Record SqliteDatabase : Type := {
  database : option string;
  pragmas : list (string * string);
  is_open : bool;
}.

Record process : Type := {
  environ : gmap string string;   (* os.environ *)
  system : string;                (* platform.system() *)
  dirs : gset string;             (* existing directories *)
  files : gmap string file;       (* existing regular files *)
  ROOT_PATH : option string;      (* global ROOT_PATH *)
  DB : SqliteDatabase;            (* global DB *)
}.

Definition set_ROOT_PATH (r : option string) (w : process) : process :=
  {| environ := environ w; system := system w; dirs := dirs w;
     files := files w; ROOT_PATH := r; DB := DB w |}.

Definition set_DB (d : SqliteDatabase) (w : process) : process :=
  {| environ := environ w; system := system w; dirs := dirs w;
     files := files w; ROOT_PATH := ROOT_PATH w; DB := d |}.

Definition set_files (f : gmap string file) (w : process) : process :=
  {| environ := environ w; system := system w; dirs := dirs w;
     files := f; ROOT_PATH := ROOT_PATH w; DB := DB w |}.

(** [peewee.SqliteDatabase(None)] *)
Definition DB0 : SqliteDatabase :=
  {| database := None; pragmas := []; is_open := false |}.

(** The state of a process when [__init__] starts: the module has just
    been loaded, so [ROOT_PATH] is [None] and [DB] is deferred. *)
Definition start (env : gmap string string) (sys : string)
    (d : gset string) (f : gmap string file) : process :=
  {| environ := env; system := sys; dirs := d; files := f;
     ROOT_PATH := None; DB := DB0 |}.

(** ** Path resolver *)

(** Python truth value of [os.getenv(...)]: [None] and the empty string
    are false. *)
Definition truthy (o : option string) : bool :=
  match o with
  | Some s => bool_decide (s ≠ "")
  | None => false
  end.

(** The dict [p] of [resolve_user_path].  In the Windows entry the source
    literal keeps both percent signs and its backslashes; only the final
    doubled backslash is an escape, for one backslash. *)
Definition p : gmap string string :=
  {[ "Linux" := "~/.profile-manager/";
     "Darwin" := "~/.profile-manager/";
     "Windows" := "%%userprofile%%\AppData\Local\profile-manager\" ]}.

Definition resolve_user_path : M process () :=
  w ← get;
  let custom_path := environ w !! "PROFILE_MANAGER_PATH" in
  if truthy custom_path then
    put (set_ROOT_PATH custom_path w)
  else
    r ← subscript p (system w);
    put (set_ROOT_PATH (Some r) w).

(** [trace] only prints to the terminal when [DEBUG] is set; the model
    does not track terminal output, so its calls leave no mark. *)

(** ** The two tables *)

(** Python values that end up in a row: [bool], [int], [datetime] (as
    seconds since the epoch, the resolution at which [TimestampField]
    stores it) and [str]. *)
Inductive value : Type :=
  | VBool (b : bool)
  | VInt (z : Z)
  | VTime (t : Z)
  | VStr (s : string).

Module AWSCredential.
Record row : Type := {
  profile : string;
  profile_type : string;
  key : string;
  secret : string;
  region : string;
  created : Z;
  last_activated : Z;
  is_active : bool;
}.
End AWSCredential.

Module Audit.
Record row : Type := {
  timestamp : Z;
  profile : string;
  profile_type : string;
  action : string;
}.
End Audit.

(** The rows of an initialised database, one that has both tables.  No
    column of either model is declared unique; the implicit integer key
    peewee adds is not modelled, the order of the rows stands for it.  A
    database file without the tables, which [check_db] opens as it is, is
    not a [Store]: there every INSERT fails. *)
Record Store : Type := {
  awscredential : list AWSCredential.row;
  audit_log : list Audit.row;
}.

(** What a command works on: the open database, the lines the user will
    type and the clock. *)
Record terminal : Type := {
  store : Store;
  stdin : list string;
  clock : Z;
}.

Definition set_store (s : Store) (t : terminal) : terminal :=
  {| store := s; stdin := stdin t; clock := clock t |}.

(** [input(prompt)]: the next line typed, [EOFError] when there is none. *)
Definition input (prompt : string) : M terminal string :=
  t ← get;
  match stdin t with
  | [] => raise EOFError
  | line :: rest =>
      _ ← put {| store := store t; stdin := rest; clock := clock t |};
      mret line
  end.

(** [datetime.now()] *)
Definition datetime_now : M terminal Z :=
  t ← get; mret (clock t).

(** *** Column adapters

    How peewee turns a keyword argument into a column value.  Every
    column is NOT NULL ([null=False] is the default); an argument that is
    missing is filled from the field's default when it has one, and makes
    the INSERT fail otherwise.  Values of a Python type that the program
    never hands to a column are not coerced here but rejected. *)
Definition CharField (column : string) (v : option value) : M terminal string :=
  match v with
  | None => raise (IntegrityError column)
  | Some (VStr s) => mret s
  | Some _ => raise (DataError column)
  end.

(** [TimestampField] defaults to [datetime.now]. *)
Definition TimestampField (column : string) (v : option value) : M terminal Z :=
  match v with
  | None => datetime_now
  | Some (VTime t) => mret t
  | Some (VInt z) => mret z
  | Some _ => raise (DataError column)
  end.

(** [BooleanField] stores [bool(value)]. *)
Definition BooleanField (column : string) (v : option value) : M terminal bool :=
  match v with
  | None => raise (IntegrityError column)
  | Some (VBool b) => mret b
  | Some (VInt z) => mret (bool_decide (z ≠ 0%Z))
  | Some (VTime _) => mret true
  | Some (VStr s) => mret (bool_decide (s ≠ ""))
  end.

(** [AWSCredential.create], called with the dict [res] unpacked into
    keyword arguments: inserts one row. *)
Definition AWSCredential_create (res : gmap string value) : M terminal AWSCredential.row :=
  profile ← CharField "profile" (res !! "profile");
  profile_type ← CharField "profile_type" (res !! "profile_type");
  key ← CharField "key" (res !! "key");
  secret ← CharField "secret" (res !! "secret");
  region ← CharField "region" (res !! "region");
  created ← TimestampField "created" (res !! "created");
  last_activated ← TimestampField "last_activated" (res !! "last_activated");
  is_active ← BooleanField "is_active" (res !! "is_active");
  let new := {| AWSCredential.profile := profile;
                AWSCredential.profile_type := profile_type;
                AWSCredential.key := key;
                AWSCredential.secret := secret;
                AWSCredential.region := region;
                AWSCredential.created := created;
                AWSCredential.last_activated := last_activated;
                AWSCredential.is_active := is_active |} in
  t ← get;
  _ ← put (set_store {| awscredential := awscredential (store t) ++ [new];
                        audit_log := audit_log (store t) |} t);
  mret new.

(** [Audit.create(timestamp=..., profile=..., action=..., profile_type=...)] *)
Definition Audit_create (kw : gmap string value) : M terminal Audit.row :=
  timestamp ← TimestampField "timestamp" (kw !! "timestamp");
  profile ← CharField "profile" (kw !! "profile");
  profile_type ← CharField "profile_type" (kw !! "profile_type");
  action ← CharField "action" (kw !! "action");
  let new := {| Audit.timestamp := timestamp;
                Audit.profile := profile;
                Audit.profile_type := profile_type;
                Audit.action := action |} in
  t ← get;
  _ ← put (set_store {| awscredential := awscredential (store t);
                        audit_log := audit_log (store t) ++ [new] |} t);
  mret new.

(** [new.save()] on a row that [create] has just inserted writes the same
    values to the same row. *)
Definition save {R : Type} (new : R) : M terminal () := mret ().

Definition audit (timestamp profile action type_ : value) : M terminal () :=
  new ← Audit_create {[ "timestamp" := timestamp; "profile" := profile;
                        "action" := action; "profile_type" := type_ ]};
  save new.

(** ** The commands *)

(** [ls] reads the profile table and prints it; it writes nothing and is
    not modelled. *)
Module ProfileManager.

Definition set (profile : string) : M terminal string := mret profile.

Definition unset : M terminal string := mret "unset".

Definition prompts : gmap string string :=
  {[ "profile" := "Please enter a profile name -> ";
     "key" := "Please enter your AWS profile key -> ";
     "secret" := "Please enter your AWS secret key -> ";
     "region" := "Please enter the default region -> " ]}.

(** The loop of [add] over the items of its dict literal, in order. *)
Fixpoint collect (items : list (string * option string)) (res : gmap string value)
    : M terminal (gmap string value) :=
  match items with
  | [] => mret res
  | (k, v) :: rest =>
      match v with
      | None =>
          prompt ← subscript prompts k;
          line ← input prompt;
          collect rest (<[k := VStr line]> res)
      | Some _ => collect rest res
      end
  end.

(** The dict [res] as [add] hands it to [AWSCredential.create]. *)
Definition build (profile key secret region : option string)
    : M terminal (gmap string value) :=
  let res : gmap string value :=
    {[ "is_active" := VBool false; "last_activated" := VInt (-1) ]} in
  now ← datetime_now;
  let res := <["created" := VTime now]> res in
  let res := <["profile_type" := VStr "AWS"]> res in
  collect [("profile", profile); ("key", key); ("secret", secret); ("region", region)] res.

Definition add (profile key secret region : option string) : M terminal string :=
  res ← build profile key secret region;
  new ← AWSCredential_create res;
  _ ← save new;
  created ← subscript res "created";
  name ← subscript res "profile";
  _ ← audit created name (VStr "CREATE_PROFILE") (VStr "AWS");
  mret "add".

Definition rm (profile : string) : M terminal string := mret "rm".

Definition config : M terminal string := mret "config".

End ProfileManager.

Definition fresh : Store := {| awscredential := []; audit_log := [] |}.

Definition tty (s : Store) (lines : list string) (now : Z) : terminal :=
  {| store := s; stdin := lines; clock := now |}.

(** ** Invocations and reachable stores *)

(** The four state-changing commands of the command line. *)
Inductive command : Type :=
  | Add (profile key secret region : option string)
  | Activate (profile : string)      (* set *)
  | Deactivate                       (* unset *)
  | Remove (profile : string).       (* rm *)

Definition dispatch (c : command) : M terminal string :=
  match c with
  | Add profile key secret region => ProfileManager.add profile key secret region
  | Activate profile => ProfileManager.set profile
  | Deactivate => ProfileManager.unset
  | Remove profile => ProfileManager.rm profile
  end.

(** One run of the tool: the command, what the user types at its prompts
    and the time on the clock. *)
Record invocation : Type := {
  cmd : command;
  typed : list string;
  at_time : Z;
}.

Definition run (i : invocation) (s : Store) : (exn + string) * Store :=
  let '(r, t) := dispatch (cmd i) (tty s (typed i) (at_time i)) in (r, store t).

(** The stores that runs of the tool can produce, starting from the
    empty tables of a new database; a run that raises counts too, with
    whatever it has written. *)
Inductive reachable : Store → Prop :=
  | reach_fresh : reachable fresh
  | reach_run (s : Store) (i : invocation) : reachable s → reachable (run i s).2.

Definition names (s : Store) : list string :=
  AWSCredential.profile <$> awscredential s.

Definition active (s : Store) : list AWSCredential.row :=
  filter (λ r, AWSCredential.is_active r = true) (awscredential s).

Definition at_most_one_active (s : Store) : Prop :=
  (length (active s) ≤ 1)%nat.

(** The audit events with a given action and profile name. *)
Definition events (a name : string) (s : Store) : list Audit.row :=
  filter (λ e, Audit.action e = a ∧ Audit.profile e = name) (audit_log s).

(** The row and the event that a fully prompted [add] writes. *)
Definition added_row (name k sc r : string) (now : Z) : AWSCredential.row :=
  {| AWSCredential.profile := name; AWSCredential.profile_type := "AWS";
     AWSCredential.key := k; AWSCredential.secret := sc;
     AWSCredential.region := r; AWSCredential.created := now;
     AWSCredential.last_activated := -1; AWSCredential.is_active := false |}.

Definition added_event (name : string) (now : Z) : Audit.row :=
  {| Audit.timestamp := now; Audit.profile := name;
     Audit.profile_type := "AWS"; Audit.action := "CREATE_PROFILE" |}.

Definition after_add (s : Store) (name k sc r : string) (now : Z) : Store :=
  {| awscredential := awscredential s ++ [added_row name k sc r now];
     audit_log := audit_log s ++ [added_event name now] |}.

(** ** Paths *)

(** [posixpath.dirname]: everything up to the last slash, with trailing
    slashes dropped unless nothing else is left. *)
Fixpoint head_of (path : string) : string :=
  match path with
  | EmptyString => ""
  | String c r =>
      let h := head_of r in
      if bool_decide (h = "") then (if Ascii.eqb c "/"%char then "/" else "")
      else String c h
  end.

Fixpoint rstrip_sep (s : string) : string :=
  match s with
  | EmptyString => ""
  | String c r =>
      let r' := rstrip_sep r in
      if bool_decide (r' = "") && Ascii.eqb c "/"%char then "" else String c r'
  end.

Definition dirname (path : string) : string :=
  let head := head_of path in
  if bool_decide (rstrip_sep head = "") then head else rstrip_sep head.

(** The directory that holds a path on Linux and Darwin; a path without
    a directory part lies in the current directory. *)
Definition posix_directory (path : string) : option string :=
  if bool_decide (dirname path = "") then None else Some (dirname path).

(** The same for a Windows path without drive letter, such as the default
    root: what precedes the last backslash or slash. *)
Definition windows_sep (c : ascii) : bool :=
  Ascii.eqb c "\"%char || Ascii.eqb c "/"%char.

Fixpoint windows_head (path : string) : string :=
  match path with
  | EmptyString => ""
  | String c r =>
      let h := windows_head r in
      if bool_decide (h = "") then (if windows_sep c then String c "" else "")
      else String c h
  end.

Fixpoint windows_rstrip (s : string) : string :=
  match s with
  | EmptyString => ""
  | String c r =>
      let r' := windows_rstrip r in
      if bool_decide (r' = "") && windows_sep c then "" else String c r'
  end.

Definition windows_directory (path : string) : option string :=
  let head := windows_head path in
  let d := if bool_decide (windows_rstrip head = "") then head else windows_rstrip head in
  if bool_decide (d = "") then None else Some d.

(** ** Store lifecycle *)

(** [os.path.exists] *)
Definition path_exists (path : string) (w : process) : bool :=
  bool_decide (path ∈ dirs w) || bool_decide (is_Some (files w !! path)).

(** ['{}profile-manager.sqlite'.format(ROOT_PATH)] *)
Definition format_path (root : option string) : string :=
  match root with
  | Some r => r ++ "profile-manager.sqlite"
  | None => "None" ++ "profile-manager.sqlite"
  end.

(** A file that SQLite has just created: rollback journal, no table. *)
Definition new_file : DbFile := {| journal_mode := "delete"; tables := ∅ |}.

Definition apply_pragma (f : DbFile) (kv : string * string) : DbFile :=
  if bool_decide (kv.1 = "journal_mode")
  then {| journal_mode := kv.2; tables := tables f |}
  else f.

(** The two files SQLite keeps beside a database that is open in
    write-ahead-log mode: the log and its shared-memory index. *)
Definition wal_file (path : string) : string := path ++ "-wal".
Definition shm_file (path : string) : string := path ++ "-shm".

Definition add_side_files (path : string) (fs : gmap string file) : gmap string file :=
  <[wal_file path := Other]> (<[shm_file path := Other]> fs).

Definition remove_side_files (path : string) (fs : gmap string file) : gmap string file :=
  delete (wal_file path) (delete (shm_file path) fs).

(** Whether executing the pragmas reads or writes the database file: of
    the pragmas, only the journal mode is kept in the file. *)
Definition touches_file (prags : list (string * string)) : bool :=
  bool_decide ("journal_mode" ∈ prags.*1).

(** The files once the pragmas have been executed on a new connection to
    the database [f] at [path]: the mode is written to the file, and a
    database put in write-ahead-log mode gets its two side files. *)
Definition executed (path : string) (f : DbFile) (prags : list (string * string))
    (fs : gmap string file) : gmap string file :=
  let f' := foldl apply_pragma f prags in
  if touches_file prags && bool_decide (journal_mode f' = "wal")
  then add_side_files path (<[path := Database f']> fs)
  else <[path := Database f']> fs.

(** The files once the connection of [d] has been closed: closing the
    last connection to a database in write-ahead-log mode removes the
    two side files. *)
Definition closed_files (d : SqliteDatabase) (fs : gmap string file) : gmap string file :=
  match database d, is_open d with
  | Some q, true =>
      match fs !! q with
      | Some (Database f) =>
          if bool_decide (journal_mode f = "wal") then remove_side_files q fs else fs
      | _ => fs
      end
  | _, _ => fs
  end.

Definition unable : exn := OperationalError "unable to open database file".
Definition not_a_database : exn := DatabaseError "file is not a database".

(** The table names peewee derives from the two model classes. *)
Definition AWSCredential_table : string := "awscredential".
Definition Audit_table : string := "audit".

Definition wal : list (string * string) := [("journal_mode", "wal")].

Section Machine.

(** The directory that holds a path, as the file system of the machine
    resolves it; [None] for a path that lies in the current directory,
    which exists.  The program never splits a path itself (SQLite and the
    operating system do), so the rule is a parameter of the model;
    [posix_directory] and [windows_directory] are instances. *)
Variable directory : string → option string.

Definition parent_exists (path : string) (w : process) : bool :=
  match directory path with
  | None => true
  | Some d => bool_decide (d ∈ dirs w)
  end.

(** [DB.init(path, pragmas=...)]: closes an open connection, then binds
    the database to [path].  (peewee leaves the database deferred when
    [path] is empty; [check_db] never passes an empty path.) *)
Definition DB_init (path : string) (prags : list (string * string)) : M process () :=
  w ← get;
  put (set_DB {| database := Some path; pragmas := prags; is_open := false |}
         (set_files (closed_files (DB w) (files w)) w)).

(** [DB.connect()]: refuses a deferred database and a second connection.
    SQLite opens an existing file, creates a missing one inside an
    existing directory and fails otherwise; the pragmas are then executed
    on the new connection, which fails on a file that is not a database
    and closes the connection again. *)
Definition DB_connect : M process () :=
  w ← get;
  match database (DB w) with
  | None => raise (InterfaceError "database must be initialized before opening a connection")
  | Some path =>
      if is_open (DB w) then raise (OperationalError "Connection already opened.")
      else if bool_decide (path ∈ dirs w) then raise unable
      else
        let opened (fs : gmap string file) : M process () :=
          put (set_DB {| database := Some path; pragmas := pragmas (DB w); is_open := true |}
                 (set_files fs w)) in
        match files w !! path with
        | Some (Database f) => opened (executed path f (pragmas (DB w)) (files w))
        | Some Other =>
            if touches_file (pragmas (DB w)) then raise not_a_database
            else opened (files w)
        | None =>
            if parent_exists path w
            then opened (executed path new_file (pragmas (DB w)) (files w))
            else raise unable
        end
  end.

(** [DB.create_tables(models)]: connects first when no connection is
    open, then runs CREATE TABLE IF NOT EXISTS for each model. *)
Definition DB_create_tables (models : list string) : M process () :=
  w ← get;
  _ ← (if is_open (DB w) then mret () else DB_connect);
  w ← get;
  match database (DB w) with
  | None => raise (InterfaceError "database must be initialized before opening a connection")
  | Some path =>
      match files w !! path with
      | None => raise unable
      | Some Other => raise not_a_database
      | Some (Database f) =>
          put (set_files
                 (<[path := Database {| journal_mode := journal_mode f;
                                        tables := tables f ∪ list_to_set models |}]>
                    (files w)) w)
      end
  end.

Definition make_db (db_path : string) : M process () :=
  _ ← DB_init db_path wal;
  _ ← DB_connect;
  DB_create_tables [AWSCredential_table; Audit_table].

Definition check_db : M process () :=
  w ← get;
  let db_path := format_path (ROOT_PATH w) in
  _ ← (if negb (path_exists db_path w) then make_db db_path else mret ());
  _ ← DB_init db_path wal;
  DB_connect.

(** [ProfileManager.__init__] *)
Definition init : M process () :=
  _ ← resolve_user_path;
  check_db.

(** ** Definitions used in the statements *)

Definition two_runs : Store :=
  (run {| cmd := Activate "work"; typed := []; at_time := 1001 |}
     (run {| cmd := Add None None None None;
             typed := ["work"; "K"; "S"; "us-east-1"]; at_time := 1000 |} fresh).2).2.

(** How many of the arguments are missing, and so prompted for. *)
Definition asked (args : list (option string)) : nat :=
  length (filter (λ a : option string, a = None) args).

(** The entry of [res] for a field: nothing when the argument was given,
    the line typed at its prompt when it was not. *)
Definition entry (arg : option string) (before : list (option string))
    (lines : list string) : option value :=
  match arg with
  | Some _ => None
  | None => VStr <$> lines !! asked before
  end.

(** The four entries that [add] sets itself. *)
Definition base (now : Z) : gmap string value :=
  {[ "is_active" := VBool false; "last_activated" := VInt (-1);
     "created" := VTime now; "profile_type" := VStr "AWS" ]}.

Definition partly_prompted : gmap string value :=
  <["region" := VStr "eu"]> (<["key" := VStr "K"]> (base 7)).

Definition first_work : invocation :=
  {| cmd := Add None None None None;
     typed := ["work"; "K"; "S"; "us-east-1"]; at_time := 1000 |}.

Definition second_work : invocation :=
  {| cmd := Add None None None None;
     typed := ["work"; "K2"; "S2"; "eu-west-1"]; at_time := 2000 |}.

Definition one_work : Store := (run first_work fresh).2.
Definition work_twice : Store := (run second_work one_work).2.

(** A table in which "work" is active, as a database file can hold it;
    the tool itself never writes one, [set] being what it is. *)
Definition work_active : Store :=
  {| awscredential :=
       [ {| AWSCredential.profile := "work"; AWSCredential.profile_type := "AWS";
            AWSCredential.key := "K"; AWSCredential.secret := "S";
            AWSCredential.region := "us-east-1"; AWSCredential.created := 1000;
            AWSCredential.last_activated := 1500; AWSCredential.is_active := true |} ];
     audit_log := [ added_event "work" 1000 ] |}.

Definition unix_root : string := "~/.profile-manager/".
Definition windows_root : string := "%%userprofile%%\AppData\Local\profile-manager\".

Definition wal_db (path : string) : SqliteDatabase :=
  {| database := Some path; pragmas := wal; is_open := true |}.

Definition schema : gset string := {[ AWSCredential_table; Audit_table ]}.

(** The state once [DB.init] has bound the database to [path]. *)
Definition bound (path : string) (w : process) : process :=
  set_DB {| database := Some path; pragmas := wal; is_open := false |}
    (set_files (closed_files (DB w) (files w)) w).

(** The state [check_db] leaves when it has opened the database at
    [path] with the tables [ts]. *)
Definition connected (path : string) (ts : gset string) (w : process) : process :=
  set_DB (wal_db path)
    (set_files
       (add_side_files path
          (<[path := Database {| journal_mode := "wal"; tables := ts |}]>
             (closed_files (DB w) (files w)))) w).

(** The state [make_db] leaves when it has made the database at [path]. *)
Definition made (path : string) (w : process) : process :=
  set_DB (wal_db path)
    (set_files
       (<[path := Database {| journal_mode := "wal"; tables := schema |}]>
          (add_side_files path
             (<[path := Database {| journal_mode := "wal"; tables := ∅ |}]>
                (closed_files (DB w) (files w))))) w).


(** A new machine: no directory, no file, nothing in the environment. *)
Definition bare : process := start ∅ "Linux" ∅ ∅.



(** ** Definitions used in the further properties *)

(** The names of the fields whose argument was given to [add]. *)
Definition supplied (profile key secret region : option string) : list string :=
  (filter (λ kv : string * option string, kv.2 ≠ None)
     [("profile", profile); ("key", key); ("secret", secret); ("region", region)]).*1.

(** The store after a list of runs, first to last. *)
Definition runs (invs : list invocation) (s : Store) : Store :=
  foldl (λ s i, (run i s).2) s invs.

(** The name a run adds to the profile table, if it adds one. *)
Definition created_name (i : invocation) : option string :=
  match cmd i, typed i with
  | Add None None None None, name :: _ :: _ :: _ :: _ => Some name
  | _, _ => None
  end.

(** The audit log says the same as the profile table: one event per row,
    in order, with the row's creation time and name. *)
Definition mirrored (s : Store) : Prop :=
  (λ e, (Audit.timestamp e, Audit.profile e)) <$> audit_log s
  = (λ r, (AWSCredential.created r, AWSCredential.profile r)) <$> awscredential s.


(** The root that [resolve_user_path] settles on. *)
Definition root_of (env : gmap string string) (sys : string) : option string :=
  if truthy (env !! "PROFILE_MANAGER_PATH") then env !! "PROFILE_MANAGER_PATH"
  else p !! sys.

Definition db_file : string := "profile-manager.sqlite".


(** A machine with an override that lacks the final separator. *)
Definition overridden : process :=
  start {[ "PROFILE_MANAGER_PATH" := "/srv/pm" ]} "FreeBSD" {[ "/srv" ]} ∅.



(** * Properties *)

(** ** Examples *)

Example dirname_ex1 : dirname "~/.profile-manager/profile-manager.sqlite" = "~/.profile-manager".
Proof. reflexivity. Qed.
Example dirname_ex2 : dirname "/x" = "/" ∧ dirname "x" = "" ∧ dirname "a//b" = "a".
Proof. repeat split; vm_compute; reflexivity. Qed.

Example windows_directory_ex :
  windows_directory "%%userprofile%%\AppData\Local\profile-manager\profile-manager.sqlite"
  = Some "%%userprofile%%\AppData\Local\profile-manager".
Proof. reflexivity. Qed.

Example add_ex1 :
  ProfileManager.add None None None None (tty fresh ["work"; "K"; "S"; "us-east-1"] 1000)
  = (inr "add",
     tty {| awscredential :=
              [ {| AWSCredential.profile := "work"; AWSCredential.profile_type := "AWS";
                   AWSCredential.key := "K"; AWSCredential.secret := "S";
                   AWSCredential.region := "us-east-1"; AWSCredential.created := 1000;
                   AWSCredential.last_activated := -1; AWSCredential.is_active := false |} ];
            audit_log :=
              [ {| Audit.timestamp := 1000; Audit.profile := "work";
                   Audit.profile_type := "AWS"; Audit.action := "CREATE_PROFILE" |} ] |}
         [] 1000).
Proof. vm_compute. reflexivity. Qed.

Example add_ex2 :
  ProfileManager.add (Some "work") (Some "K") (Some "S") (Some "us-east-1") (tty fresh [] 1000)
  = (inl (IntegrityError "profile"), tty fresh [] 1000).
Proof. vm_compute. reflexivity. Qed.

(** ** [add] *)

(** With no argument given and four lines typed, [add] succeeds. *)
Lemma add_prompted (s : Store) (name k sc r : string) (rest : list string) (now : Z) :
  ProfileManager.add None None None None (tty s (name :: k :: sc :: r :: rest) now)
  = (inr "add", tty (after_add s name k sc r now) rest now).
Proof. reflexivity. Qed.

(** [add] either is that run, or raises and leaves both tables alone. *)
Lemma add_cases (profile key secret region : option string) (t : terminal) :
  (∃ name k sc r rest,
      profile = None ∧ key = None ∧ secret = None ∧ region = None ∧
      stdin t = name :: k :: sc :: r :: rest ∧
      ProfileManager.add profile key secret region t
      = (inr "add", tty (after_add (store t) name k sc r (clock t)) rest (clock t)))
  ∨ (∃ e t', ProfileManager.add profile key secret region t = (inl e, t') ∧
             store t' = store t).
Proof.
  destruct t as [s lines now].
  destruct profile, key, secret, region;
    destruct lines as [|l1 [|l2 [|l3 [|l4 rest]]]];
    first [ right; eexists _, _; split; reflexivity
          | left; by exists l1, l2, l3, l4, rest ].
Qed.

Lemma inactive_no_active (s : Store) :
  Forall (λ r, AWSCredential.is_active r = false) (awscredential s) → active s = [].
Proof.
  unfold active. induction 1 as [|r l Hr _ IH]; [done|].
  rewrite filter_cons_False; [exact IH|]. rewrite Hr. discriminate.
Qed.

(** No command ever writes a row that is active, or touches one. *)
Lemma run_inactive (i : invocation) (s : Store) :
  Forall (λ r, AWSCredential.is_active r = false) (awscredential s) →
  Forall (λ r, AWSCredential.is_active r = false) (awscredential (run i s).2).
Proof.
  intros Hs. destruct i as [c lines now]. unfold run. destruct c; simpl; try exact Hs.
  destruct (add_cases profile key secret region (tty s lines now))
    as [(name & k & sc & r & rest & _ & _ & _ & _ & _ & ->) | (e & t' & -> & Ht')]; simpl.
  - apply Forall_app. split; [exact Hs|]. by constructor.
  - by rewrite Ht'.
Qed.

Lemma reachable_inactive (s : Store) :
  reachable s → Forall (λ r, AWSCredential.is_active r = false) (awscredential s).
Proof.
  induction 1 as [|s i _ IH]; [constructor|]. by apply run_inactive.
Qed.

(** C1: in every store reachable from the empty one by runs of add, set,
    unset and rm, at most one profile has is_active set. *)
Theorem single_active_invariant (s : Store) :
  reachable s → at_most_one_active s.
Proof.
  intros Hr. unfold at_most_one_active.
  rewrite (inactive_no_active s (reachable_inactive s Hr)). simpl. lia.
Qed.

Lemma single_active_invariant_witness :
  names two_runs = ["work"] ∧ at_most_one_active two_runs.
Proof.
  split; [reflexivity|].
  apply (single_active_invariant two_runs).
  unfold two_runs. apply reach_run, reach_run, reach_fresh.
Defined.

(** C7: a successful add appends one profile row, created at the current
    time, inactive and never activated, and one CREATE_PROFILE audit
    event carrying that row's name; an add that fails appends no audit
    event.  On a store the tool has produced, an add without arguments
    that is given four lines is such a successful add. *)
Theorem add_audit_complete (profile key secret region : option string) (t : terminal) :
  match ProfileManager.add profile key secret region t with
  | (inr _, t') =>
      ∃ new ev,
        awscredential (store t') = (awscredential (store t) ++ [new])%list ∧
        AWSCredential.created new = clock t ∧
        AWSCredential.is_active new = false ∧
        AWSCredential.last_activated new = (-1)%Z ∧
        audit_log (store t') = (audit_log (store t) ++ [ev])%list ∧
        Audit.action ev = "CREATE_PROFILE" ∧
        Audit.profile ev = AWSCredential.profile new
  | (inl _, t') => audit_log (store t') = audit_log (store t)
  end ∧
  (reachable (store t) →
   profile = None → key = None → secret = None → region = None →
   (4 ≤ length (stdin t))%nat →
   ∃ new ev,
     ProfileManager.add profile key secret region t
     = (inr "add",
        tty {| awscredential := awscredential (store t) ++ [new];
               audit_log := audit_log (store t) ++ [ev] |}
          (drop 4 (stdin t)) (clock t))).
Proof.
  split.
  - destruct (add_cases profile key secret region t)
      as [(name & k & sc & r & rest & _ & _ & _ & _ & _ & ->) | (e & t' & -> & Ht')].
    + exists (added_row name k sc r (clock t)), (added_event name (clock t)).
      by repeat split.
    + by rewrite Ht'.
  - intros _ -> -> -> -> Hl. destruct t as [s lines now].
    destruct lines as [|l1 [|l2 [|l3 [|l4 rest]]]]; try (simpl in Hl; lia).
    exists (added_row l1 l2 l3 l4 now), (added_event l1 now). apply add_prompted.
Qed.

Lemma add_audit_complete_witness :
  reachable one_work ∧
  ∃ new ev,
    ProfileManager.add None None None None (tty one_work ["home"; "K"; "S"; "eu"] 5)
    = (inr "add",
       tty {| awscredential := awscredential one_work ++ [new];
              audit_log := audit_log one_work ++ [ev] |} [] 5).
Proof.
  assert (Hr : reachable one_work) by (unfold one_work; apply reach_run, reach_fresh).
  split; [exact Hr|].
  apply (proj2 (add_audit_complete None None None None
                  (tty one_work ["home"; "K"; "S"; "eu"] 5)));
    [exact Hr | reflexivity | reflexivity | reflexivity | reflexivity | simpl; lia].
Defined.

(** ** The record [add] builds *)

(** C9: the record that add gives to AWSCredential.create never holds a
    field whose argument was supplied; it holds, for each missing
    argument, the line typed at its prompt, and when all four arguments
    are supplied it holds none of the four credential fields. *)
Theorem supplied_arguments_dropped :
  (∀ (profile key secret region : option string) (t : terminal)
     (res : gmap string value) (t' : terminal),
      ProfileManager.build profile key secret region t = (inr res, t') →
      res !! "profile" = entry profile [] (stdin t) ∧
      res !! "key" = entry key [profile] (stdin t) ∧
      res !! "secret" = entry secret [profile; key] (stdin t) ∧
      res !! "region" = entry region [profile; key; secret] (stdin t)) ∧
  (∀ (a b c d : string) (t : terminal),
      ProfileManager.build (Some a) (Some b) (Some c) (Some d) t = (inr (base (clock t)), t) ∧
      base (clock t) !! "profile" = None ∧ base (clock t) !! "key" = None ∧
      base (clock t) !! "secret" = None ∧ base (clock t) !! "region" = None).
Proof.
  split.
  - intros profile key secret region [s lines now] res t' H.
    destruct profile, key, secret, region;
      destruct lines as [|l1 [|l2 [|l3 [|l4 rest]]]];
      first [ discriminate H | injection H as <- <-; repeat split; reflexivity ].
  - intros a b c d [s lines now]. repeat split; reflexivity.
Qed.

Lemma supplied_arguments_dropped_witness :
  ProfileManager.build (Some "work") None (Some "S") None (tty fresh ["K"; "eu"] 7)
  = (inr partly_prompted, tty fresh [] 7) ∧
  partly_prompted !! "profile" = None ∧ partly_prompted !! "key" = Some (VStr "K") ∧
  partly_prompted !! "secret" = None ∧ partly_prompted !! "region" = Some (VStr "eu").
Proof.
  split; [reflexivity|].
  exact (proj1 supplied_arguments_dropped (Some "work") None (Some "S") None
           (tty fresh ["K"; "eu"] 7) partly_prompted (tty fresh [] 7) eq_refl).
Defined.

(** ** Names are not keys *)

Lemma work_twice_reachable : reachable work_twice.
Proof. apply reach_run, reach_run, reach_fresh. Qed.

(** C2, as stated, fails: a second add under the name of an existing
    profile succeeds, writes a second row and a second CREATE_PROFILE
    event, and leaves a reachable store in which the name occurs twice. *)
Lemma duplicate_name_accepted :
  names one_work = ["work"] ∧
  (run second_work one_work).1 = inr "add" ∧
  names work_twice = ["work"; "work"] ∧
  awscredential work_twice ≠ awscredential one_work ∧
  length (events "CREATE_PROFILE" "work" work_twice) = 2%nat ∧
  reachable work_twice ∧ ¬ NoDup (names work_twice).
Proof.
  repeat split; try reflexivity.
  - discriminate.
  - exact work_twice_reachable.
  - intros H. apply NoDup_cons in H as [H _]. apply H. left.
Qed.

(** C2, amended: add never looks for an existing name.  For every store
    and every name that a profile already has, an add that prompts for
    its fields and is given that name succeeds, appends a further row
    under that name and a further CREATE_PROFILE event for it.  Names are
    not unique in every reachable store. *)
Theorem add_ignores_existing_name (s : Store) (name : string) :
  name ∈ names s →
  (∀ (k sc r : string) (rest : list string) (now : Z),
      ProfileManager.add None None None None (tty s (name :: k :: sc :: r :: rest) now)
      = (inr "add", tty (after_add s name k sc r now) rest now) ∧
      names (after_add s name k sc r now) = (names s ++ [name])%list ∧
      events "CREATE_PROFILE" name (after_add s name k sc r now)
      = (events "CREATE_PROFILE" name s ++ [added_event name now])%list ∧
      ¬ NoDup (names (after_add s name k sc r now))) ∧
  (∃ s', reachable s' ∧ ¬ NoDup (names s')).
Proof.
  intros Hin. split.
  - intros k sc r rest now.
    assert (Hn : names (after_add s name k sc r now) = (names s ++ [name])%list).
    { unfold names, after_add. simpl. by rewrite fmap_app. }
    repeat split.
    + exact Hn.
    + unfold events, after_add. simpl. rewrite filter_app.
      by rewrite filter_cons_True, filter_nil.
    + rewrite Hn. intros Hnd. apply NoDup_app in Hnd as (_ & Hd & _).
      apply (Hd name Hin). by left.
  - exists work_twice. split; [exact work_twice_reachable|].
    intros H. apply NoDup_cons in H as [H _]. apply H. left.
Qed.

Lemma add_ignores_existing_name_witness :
  "work" ∈ names one_work ∧
  names (after_add one_work "work" "K2" "S2" "eu-west-1" 2000) = ["work"; "work"].
Proof.
  assert (Hin : "work" ∈ names one_work) by (by left).
  split; [exact Hin|].
  destruct (add_ignores_existing_name one_work "work" Hin) as [H _].
  destruct (H "K2" "S2" "eu-west-1" [] 2000%Z) as (_ & Hn & _).
  exact Hn.
Defined.

(** ** The stub commands: set, rm, unset *)

(** [set], [rm] and [unset] return without reading or writing the
    database. *)
Lemma set_returns (profile : string) (t : terminal) :
  ProfileManager.set profile t = (inr profile, t).
Proof. reflexivity. Qed.

Lemma rm_returns (profile : string) (t : terminal) :
  ProfileManager.rm profile t = (inr "rm", t).
Proof. reflexivity. Qed.

Lemma unset_returns (t : terminal) :
  ProfileManager.unset t = (inr "unset", t).
Proof. reflexivity. Qed.

(** C3, on the code: set on the existing, inactive profile "work" returns
    the name and changes nothing; "work" stays inactive, its last
    activation stays at -1 and no ACTIVATE_PROFILE event is written.  On
    a name that no profile has, set returns normally too. *)
Lemma set_does_not_activate :
  names one_work = ["work"] ∧
  run {| cmd := Activate "work"; typed := []; at_time := 1001 |} one_work
  = (inr "work", one_work) ∧
  active one_work = [] ∧
  AWSCredential.last_activated <$> awscredential one_work = [(-1)%Z] ∧
  events "ACTIVATE_PROFILE" "work" one_work = [] ∧
  run {| cmd := Activate "home"; typed := []; at_time := 1001 |} one_work
  = (inr "home", one_work).
Proof. repeat split; reflexivity. Qed.

(** C4, on the code: rm on the existing profile "work" returns and
    changes nothing; the profile is still in the table afterwards.  On a
    name that no profile has, rm returns normally too. *)
Lemma rm_does_not_remove :
  run {| cmd := Remove "work"; typed := []; at_time := 1001 |} one_work
  = (inr "rm", one_work) ∧
  "work" ∈ names (run {| cmd := Remove "work"; typed := []; at_time := 1001 |} one_work).2 ∧
  events "REMOVE_PROFILE" "work" one_work = [] ∧
  run {| cmd := Remove "home"; typed := []; at_time := 1001 |} one_work
  = (inr "rm", one_work).
Proof. repeat split; try reflexivity. by left. Qed.

(** C8, on the code: with "work" active, unset returns and changes
    nothing; "work" stays active and no DEACTIVATE_PROFILE event is
    written. *)
Lemma unset_leaves_active :
  AWSCredential.profile <$> active work_active = ["work"] ∧
  run {| cmd := Deactivate; typed := []; at_time := 2000 |} work_active
  = (inr "unset", work_active) ∧
  AWSCredential.profile
    <$> active (run {| cmd := Deactivate; typed := []; at_time := 2000 |} work_active).2
  = ["work"] ∧
  events "DEACTIVATE_PROFILE" "work"
    (run {| cmd := Deactivate; typed := []; at_time := 2000 |} work_active).2 = [].
Proof. repeat split; reflexivity. Qed.

(** ** Path resolver *)

Lemma p_lookup_other (sys : string) :
  sys ≠ "Linux" → sys ≠ "Darwin" → sys ≠ "Windows" → p !! sys = None.
Proof.
  intros H1 H2 H3. unfold p.
  rewrite lookup_insert_ne by done. rewrite lookup_insert_ne by done.
  by rewrite lookup_singleton_ne.
Qed.

(** Without a usable override the root comes from [p]. *)
Lemma resolve_default (w : process) :
  truthy (environ w !! "PROFILE_MANAGER_PATH") = false →
  resolve_user_path w
  = match p !! system w with
    | Some r => (inr (), set_ROOT_PATH (Some r) w)
    | None => (inl (KeyError (system w)), w)
    end.
Proof.
  intros H. unfold resolve_user_path, mbind, M_bind, get. rewrite H.
  unfold subscript. by destruct (p !! system w).
Qed.

Lemma resolve_override (w : process) (v : string) :
  environ w !! "PROFILE_MANAGER_PATH" = Some v → v ≠ "" →
  resolve_user_path w = (inr (), set_ROOT_PATH (Some v) w).
Proof.
  intros H Hv. unfold resolve_user_path, mbind, M_bind, get. rewrite H. simpl.
  by rewrite bool_decide_eq_true_2.
Qed.

(** C6, as stated, fails: with PROFILE_MANAGER_PATH set to the empty
    string on Linux, the root is the platform default, not the value of
    the variable. *)
Lemma empty_override_ignored :
  environ (start {[ "PROFILE_MANAGER_PATH" := "" ]} "Linux" ∅ ∅)
    !! "PROFILE_MANAGER_PATH" = Some "" ∧
  resolve_user_path (start {[ "PROFILE_MANAGER_PATH" := "" ]} "Linux" ∅ ∅)
  = (inr (), set_ROOT_PATH (Some "~/.profile-manager/")
               (start {[ "PROFILE_MANAGER_PATH" := "" ]} "Linux" ∅ ∅)) ∧
  ROOT_PATH (resolve_user_path (start {[ "PROFILE_MANAGER_PATH" := "" ]} "Linux" ∅ ∅)).2
  ≠ Some "".
Proof. repeat split; try reflexivity. discriminate. Qed.

(** C6, amended: resolve_user_path takes the value of PROFILE_MANAGER_PATH
    verbatim whenever it is set to a non-empty string; when it is unset
    or empty the root is the fixed default of the platform, and on a
    platform without a default the call fails, with a KeyError on the
    platform name. *)
Theorem resolve_user_path_spec (w : process) :
  (∀ v : string,
      environ w !! "PROFILE_MANAGER_PATH" = Some v → v ≠ "" →
      resolve_user_path w = (inr (), set_ROOT_PATH (Some v) w)) ∧
  (environ w !! "PROFILE_MANAGER_PATH" = None ∨
   environ w !! "PROFILE_MANAGER_PATH" = Some "" →
   (system w = "Linux" ∨ system w = "Darwin" →
    resolve_user_path w = (inr (), set_ROOT_PATH (Some unix_root) w)) ∧
   (system w = "Windows" →
    resolve_user_path w = (inr (), set_ROOT_PATH (Some windows_root) w)) ∧
   (system w ≠ "Linux" → system w ≠ "Darwin" → system w ≠ "Windows" →
    resolve_user_path w = (inl (KeyError (system w)), w))).
Proof.
  split; [intros v; apply resolve_override|].
  intros Henv.
  assert (Hf : truthy (environ w !! "PROFILE_MANAGER_PATH") = false)
    by (by destruct Henv as [-> | ->]).
  rewrite (resolve_default w Hf). repeat split.
  - by intros [-> | ->].
  - by intros ->.
  - intros H1 H2 H3. by rewrite p_lookup_other.
Qed.

Lemma resolve_user_path_spec_witness :
  resolve_user_path (start {[ "PROFILE_MANAGER_PATH" := "/srv/pm/" ]} "Linux" ∅ ∅)
  = (inr (), set_ROOT_PATH (Some "/srv/pm/")
               (start {[ "PROFILE_MANAGER_PATH" := "/srv/pm/" ]} "Linux" ∅ ∅)) ∧
  resolve_user_path (start ∅ "Windows" ∅ ∅)
  = (inr (), set_ROOT_PATH (Some windows_root) (start ∅ "Windows" ∅ ∅)) ∧
  resolve_user_path (start ∅ "FreeBSD" ∅ ∅)
  = (inl (KeyError "FreeBSD"), start ∅ "FreeBSD" ∅ ∅).
Proof.
  split; [|split].
  - apply (proj1 (resolve_user_path_spec
                    (start {[ "PROFILE_MANAGER_PATH" := "/srv/pm/" ]} "Linux" ∅ ∅)) "/srv/pm/");
      [reflexivity | discriminate].
  - apply (proj2 (resolve_user_path_spec (start ∅ "Windows" ∅ ∅)));
      [left; reflexivity | reflexivity].
  - apply (proj2 (resolve_user_path_spec (start ∅ "FreeBSD" ∅ ∅)));
      [left; reflexivity | discriminate | discriminate | discriminate].
Defined.

(** ** Store lifecycle *)

(** *** Strings *)

Lemma string_app_ne (s t : string) : t ≠ "" → s ≠ s ++ t.
Proof.
  intros Ht. induction s as [|c s IH]; simpl.
  - by destruct t.
  - intros H. injection H as H. by apply IH.
Qed.


Lemma wal_file_ne (path : string) : wal_file path ≠ path.
Proof. intros H. by apply (string_app_ne path "-wal"). Qed.

Lemma shm_file_ne (path : string) : shm_file path ≠ path.
Proof. intros H. by apply (string_app_ne path "-shm"). Qed.


(** *** Files *)

Lemma closed_files_lookup (d : SqliteDatabase) (fs : gmap string file) (q : string) :
  closed_files d fs !! q = fs !! q ∨ closed_files d fs !! q = None.
Proof.
  unfold closed_files, remove_side_files.
  repeat case_match; try by left.
  destruct (decide (q = wal_file s)) as [->|]; [right; by rewrite lookup_delete_eq|].
  rewrite lookup_delete_ne by done.
  destruct (decide (q = shm_file s)) as [->|]; [right; by rewrite lookup_delete_eq|].
  rewrite lookup_delete_ne by done. by left.
Qed.


Lemma add_side_files_lookup (path q : string) (fs : gmap string file) :
  add_side_files path fs !! q
  = if decide (q = wal_file path) then Some Other
    else if decide (q = shm_file path) then Some Other else fs !! q.
Proof.
  unfold add_side_files. rewrite !lookup_insert.
  repeat case_decide; congruence.
Qed.

Lemma remove_side_files_lookup (path q : string) (fs : gmap string file) :
  remove_side_files path fs !! q
  = if decide (q = wal_file path) then None
    else if decide (q = shm_file path) then None else fs !! q.
Proof.
  unfold remove_side_files. rewrite !lookup_delete.
  repeat case_decide; congruence.
Qed.


(** [DB.connect()] on a database that [DB.init] has just bound. *)
Lemma connect_bound (path : string) (b : process) :
  DB b = {| database := Some path; pragmas := wal; is_open := false |} →
  DB_connect b
  = if bool_decide (path ∈ dirs b) then (inl unable, b)
    else match files b !! path with
         | Some (Database f) =>
             (inr (), set_DB (wal_db path)
                        (set_files (add_side_files path
                           (<[path := Database {| journal_mode := "wal"; tables := tables f |}]>
                              (files b))) b))
         | Some Other => (inl not_a_database, b)
         | None =>
             if parent_exists path b
             then (inr (), set_DB (wal_db path)
                             (set_files (add_side_files path
                                (<[path := Database {| journal_mode := "wal"; tables := ∅ |}]>
                                   (files b))) b))
             else (inl unable, b)
         end.
Proof.
  intros Hb. unfold DB_connect, mbind, M_bind, get, raise, put. rewrite Hb. simpl.
  case_bool_decide; [done|].
  destruct (files b !! path) as [[f|]|]; try done.
  by destruct (parent_exists path b).
Qed.

Lemma DB_init_wal (path : string) (w : process) :
  DB_init path wal w = (inr (), bound path w).
Proof. reflexivity. Qed.

Lemma path_exists_false (path : string) (w : process) :
  path_exists path w = false ↔ (path ∉ dirs w) ∧ files w !! path = None.
Proof.
  unfold path_exists. rewrite orb_false_iff, !bool_decide_eq_false.
  rewrite <-eq_None_not_Some. done.
Qed.

Lemma check_db_skip (w : process) :
  path_exists (format_path (ROOT_PATH w)) w = true →
  check_db w = DB_connect (bound (format_path (ROOT_PATH w)) w).
Proof.
  intros Hex. unfold check_db, mbind, M_bind, get. simpl. by rewrite Hex.
Qed.

Lemma check_db_make (w : process) :
  path_exists (format_path (ROOT_PATH w)) w = false →
  check_db w
  = match make_db (format_path (ROOT_PATH w)) w with
    | (inl e, w') => (inl e, w')
    | (inr _, w') => DB_connect (bound (format_path (ROOT_PATH w)) w')
    end.
Proof.
  intros Hex. unfold check_db, mbind, M_bind, get. simpl. by rewrite Hex.
Qed.

Lemma create_tables_open (models : list string) (path : string) (f : DbFile) (w : process) :
  is_open (DB w) = true → database (DB w) = Some path →
  files w !! path = Some (Database f) →
  DB_create_tables models w
  = (inr (), set_files (<[path := Database {| journal_mode := journal_mode f;
                                              tables := tables f ∪ list_to_set models |}]>
                          (files w)) w).
Proof.
  intros Ho Hd Hf. unfold DB_create_tables, mbind, M_bind, get. simpl.
  rewrite Ho. simpl. rewrite Hd, Hf. reflexivity.
Qed.

Lemma bound_DB (path : string) (w : process) :
  DB (bound path w) = {| database := Some path; pragmas := wal; is_open := false |}.
Proof. reflexivity. Qed.

Lemma make_db_new (path : string) (w : process) :
  path ∉ dirs w → files w !! path = None → parent_exists path w = true →
  make_db path w = (inr (), made path w).
Proof.
  intros Hd Hf Hp. unfold make_db, mbind, M_bind.
  rewrite DB_init_wal, (connect_bound path _ (bound_DB path w)). simpl.
  rewrite bool_decide_eq_false_2 by done.
  assert (Hc : closed_files (DB w) (files w) !! path = None).
  { destruct (closed_files_lookup (DB w) (files w) path) as [-> | ->]; done. }
  rewrite Hc. change (parent_exists path (bound path w)) with (parent_exists path w).
  rewrite Hp.
  set (F := add_side_files path
              (<[path := Database {| journal_mode := "wal"; tables := ∅ |}]>
                 (closed_files (DB w) (files w)))).
  assert (HF : F !! path = Some (Database {| journal_mode := "wal"; tables := ∅ |})).
  { unfold F. rewrite add_side_files_lookup, lookup_insert_eq.
    rewrite decide_False by (apply not_eq_sym, wal_file_ne).
    by rewrite decide_False by (apply not_eq_sym, shm_file_ne). }
  erewrite (create_tables_open _ path); cycle 1; [reflexivity|reflexivity|exact HF|].
  unfold made, set_files, set_DB. simpl. fold F.
  replace (∅ ∪ ({[AWSCredential_table]} ∪ ({[Audit_table]} ∪ ∅))) with schema
    by (unfold schema; set_solver).
  reflexivity.
Qed.

Lemma make_db_no_parent (path : string) (w : process) :
  path ∉ dirs w → files w !! path = None → parent_exists path w = false →
  make_db path w = (inl unable, bound path w).
Proof.
  intros Hd Hf Hp. unfold make_db, mbind, M_bind.
  rewrite DB_init_wal, (connect_bound path _ (bound_DB path w)). simpl.
  rewrite bool_decide_eq_false_2 by done.
  assert (Hc : closed_files (DB w) (files w) !! path = None).
  { destruct (closed_files_lookup (DB w) (files w) path) as [-> | ->]; done. }
  rewrite Hc. change (parent_exists path (bound path w)) with (parent_exists path w).
  by rewrite Hp.
Qed.

(** After [make_db] has made the database, [check_db] closes the
    connection and opens it again: the files end as [connected] says. *)
Lemma closed_files_wal (path : string) (f : DbFile) (fs : gmap string file) :
  fs !! path = Some (Database f) → journal_mode f = "wal" →
  closed_files (wal_db path) fs = remove_side_files path fs.
Proof.
  intros Hf Hj. unfold closed_files. simpl. rewrite Hf.
  by rewrite bool_decide_eq_true_2.
Qed.

Lemma files_made (path : string) (v v0 : file) (fs : gmap string file) :
  add_side_files path
    (<[path := v]> (remove_side_files path
       (<[path := v]> (add_side_files path (<[path := v0]> fs)))))
  = add_side_files path (<[path := v]> fs).
Proof.
  apply map_eq. intros q.
  rewrite !add_side_files_lookup, !lookup_insert, remove_side_files_lookup,
    lookup_insert, add_side_files_lookup, lookup_insert.
  repeat case_decide; congruence.
Qed.

Lemma made_reconnect (path : string) (w : process) :
  path ∉ dirs w →
  DB_connect (bound path (made path w)) = (inr (), connected path schema w).
Proof.
  intros Hd. rewrite (connect_bound path _ (bound_DB path _)).
  change (dirs (bound path (made path w))) with (dirs w).
  rewrite bool_decide_eq_false_2 by done.
  set (C := closed_files (DB w) (files w)).
  set (F := <[path := Database {| journal_mode := "wal"; tables := schema |}]>
              (add_side_files path
                 (<[path := Database {| journal_mode := "wal"; tables := ∅ |}]> C))).
  change (files (bound path (made path w))) with (closed_files (wal_db path) F).
  rewrite (closed_files_wal path {| journal_mode := "wal"; tables := schema |} F);
    [|apply lookup_insert_eq|reflexivity].
  rewrite remove_side_files_lookup.
  rewrite decide_False by (apply not_eq_sym, wal_file_ne).
  rewrite decide_False by (apply not_eq_sym, shm_file_ne).
  unfold F at 1. rewrite lookup_insert_eq.
  unfold connected, set_DB, set_files. cbn [tables]. do 2 f_equal.
  apply files_made.
Qed.


(** The outcome of [DB.connect()] right after [DB.init] in [check_db]. *)
Lemma connect_after_init (path : string) (w : process) :
  DB_connect (bound path w)
  = if bool_decide (path ∈ dirs w) then (inl unable, bound path w)
    else match closed_files (DB w) (files w) !! path with
         | Some (Database f) => (inr (), connected path (tables f) w)
         | Some Other => (inl not_a_database, bound path w)
         | None =>
             if parent_exists path w then (inr (), connected path ∅ w)
             else (inl unable, bound path w)
         end.
Proof. by rewrite (connect_bound path _ (bound_DB path w)). Qed.



Lemma check_db_binds (w : process) :
  database (DB (check_db w).2) = Some (format_path (ROOT_PATH w)).
Proof.
  set (path := format_path (ROOT_PATH w)).
  destruct (path_exists path w) eqn:Hex.
  - rewrite (check_db_skip w Hex). fold path. rewrite connect_after_init.
    repeat case_match; done.
  - pose proof Hex as [Hd Hf]%path_exists_false.
    rewrite (check_db_make w Hex). fold path.
    destruct (parent_exists path w) eqn:Hp.
    + by rewrite (make_db_new path w Hd Hf Hp), (made_reconnect path w Hd).
    + by rewrite (make_db_no_parent path w Hd Hf Hp).
Qed.

Lemma check_db_root (w : process) : ROOT_PATH (check_db w).2 = ROOT_PATH w.
Proof.
  set (path := format_path (ROOT_PATH w)).
  destruct (path_exists path w) eqn:Hex.
  - rewrite (check_db_skip w Hex). fold path. rewrite connect_after_init.
    repeat case_match; done.
  - pose proof Hex as [Hd Hf]%path_exists_false.
    rewrite (check_db_make w Hex). fold path.
    destruct (parent_exists path w) eqn:Hp.
    + by rewrite (make_db_new path w Hd Hf Hp), (made_reconnect path w Hd).
    + by rewrite (make_db_no_parent path w Hd Hf Hp).
Qed.





(** C10: with PROFILE_MANAGER_PATH unset on Linux or Darwin,
    resolve_user_path sets the root to the literal ~/.profile-manager/
    (the tilde is not expanded), and check_db then computes and binds
    the database to the literal path
    ~/.profile-manager/profile-manager.sqlite. *)
Theorem unix_root_literal (w : process) :
  environ w !! "PROFILE_MANAGER_PATH" = None →
  system w = "Linux" ∨ system w = "Darwin" →
  resolve_user_path w = (inr (), set_ROOT_PATH (Some "~/.profile-manager/") w) ∧
  format_path (ROOT_PATH (resolve_user_path w).2)
  = "~/.profile-manager/profile-manager.sqlite" ∧
  database (DB (init w).2) = Some "~/.profile-manager/profile-manager.sqlite".
Proof.
  intros Henv Hsys.
  assert (Hr : resolve_user_path w
               = (inr (), set_ROOT_PATH (Some "~/.profile-manager/") w)).
  { rewrite resolve_default by (by rewrite Henv). by destruct Hsys as [-> | ->]. }
  split; [exact Hr|]. split.
  - by rewrite Hr.
  - unfold init, mbind, M_bind. rewrite Hr. apply check_db_binds.
Qed.

(** * Further properties *)

(** ** add: arguments, prompts and end of input *)

(** X1: when add is given any of its four arguments it fails: it reads
    one line for each missing argument, or all the input if that runs
    out first, and writes nothing to either table. *)
Theorem add_args_fail (profile key secret region : option string) (t : terminal) :
  supplied profile key secret region ≠ [] →
  ∃ e, ProfileManager.add profile key secret region t
       = (inl e,
          tty (store t) (drop (asked [profile; key; secret; region]) (stdin t)) (clock t)).
Proof.
  destruct t as [s lines now]. intros Hs.
  destruct profile, key, secret, region; try done;
    destruct lines as [|l1 [|l2 [|l3 [|l4 rest]]]];
    eexists; reflexivity.
Qed.

Lemma add_args_fail_witness :
  ∃ e, ProfileManager.add (Some "work") None None (Some "eu") (tty one_work ["K"; "S"; "x"] 5)
       = (inl e, tty one_work ["x"] 5).
Proof.
  apply (add_args_fail (Some "work") None None (Some "eu") (tty one_work ["K"; "S"; "x"] 5)).
  discriminate.
Defined.

(** X2: when fewer lines are typed than arguments are missing, add fails
    with EOFError, has read all the lines and has written nothing. *)
Theorem add_eof (profile key secret region : option string) (t : terminal) :
  (length (stdin t) < asked [profile; key; secret; region])%nat →
  ProfileManager.add profile key secret region t
  = (inl EOFError, tty (store t) [] (clock t)).
Proof.
  destruct t as [s lines now]. intros Hl.
  destruct profile, key, secret, region;
    destruct lines as [|l1 [|l2 [|l3 [|l4 rest]]]];
    try (exfalso; unfold asked in Hl; simpl in Hl; lia); reflexivity.
Qed.

Lemma add_eof_witness :
  ProfileManager.add None None None None (tty one_work ["home"; "K"] 5)
  = (inl EOFError, tty one_work [] 5).
Proof.
  apply (add_eof None None None None (tty one_work ["home"; "K"] 5)).
  unfold asked. simpl. lia.
Defined.

(** X3: add succeeds only when none of its four arguments is given and
    at least four lines are typed, and then it returns 'add'. *)
Theorem add_succeeds_only_prompted (profile key secret region : option string)
    (t : terminal) (x : string) (t' : terminal) :
  ProfileManager.add profile key secret region t = (inr x, t') →
  supplied profile key secret region = [] ∧ (4 ≤ length (stdin t))%nat ∧ x = "add".
Proof.
  intros Ha.
  destruct (add_cases profile key secret region t)
    as [(name & k & sc & r' & rest & -> & -> & -> & -> & Hl & He) | (e & t'' & He & _)];
    rewrite He in Ha; [|discriminate Ha].
  injection Ha as <- _. rewrite Hl. repeat split. simpl. lia.
Qed.

Lemma add_succeeds_only_prompted_witness :
  ProfileManager.add None None None None (tty one_work ["home"; "K"; "S"; "eu"] 5)
  = (inr "add", tty (after_add one_work "home" "K" "S" "eu" 5) [] 5) ∧
  supplied None None None None = [] ∧
  (4 ≤ length ["home"; "K"; "S"; "eu"])%nat.
Proof.
  assert (H : ProfileManager.add None None None None (tty one_work ["home"; "K"; "S"; "eu"] 5)
              = (inr "add", tty (after_add one_work "home" "K" "S" "eu" 5) [] 5))
    by reflexivity.
  split; [exact H|].
  destruct (add_succeeds_only_prompted _ _ _ _ _ _ _ H) as (Hs & Hl & _). by split.
Defined.

(** X4: a successful add has read exactly four lines, in the order name,
    key, secret, region; the last row of the profile table holds them as
    typed and the last audit event carries the name. *)
Theorem add_stores_typed (profile key secret region : option string)
    (t : terminal) (x : string) (t' : terminal) :
  ProfileManager.add profile key secret region t = (inr x, t') →
  ∃ name k sc r,
    stdin t = (name :: k :: sc :: r :: stdin t')%list ∧
    last (awscredential (store t')) = Some (added_row name k sc r (clock t)) ∧
    last (audit_log (store t')) = Some (added_event name (clock t)).
Proof.
  intros Ha.
  destruct (add_cases profile key secret region t)
    as [(name & k & sc & r & rest & _ & _ & _ & _ & Hl & He) | (e & t'' & He & _)];
    rewrite He in Ha; [|discriminate Ha].
  injection Ha as _ <-. exists name, k, sc, r. simpl.
  by rewrite Hl, !last_snoc.
Qed.

Lemma add_stores_typed_witness :
  ∃ name k sc r,
    ["home"; ""; "S"; "eu"; "more"] = (name :: k :: sc :: r :: ["more"])%list ∧
    last (awscredential (after_add one_work "home" "" "S" "eu" 5))
    = Some (added_row name k sc r 5) ∧
    last (audit_log (after_add one_work "home" "" "S" "eu" 5))
    = Some (added_event name 5).
Proof.
  exact (add_stores_typed None None None None
           (tty one_work ["home"; ""; "S"; "eu"; "more"] 5) "add"
           (tty (after_add one_work "home" "" "S" "eu" 5) ["more"] 5) eq_refl).
Defined.

(** ** Runs *)

(** A run either leaves the store as it is or is a fully prompted add. *)
Lemma run_cases (i : invocation) (s : Store) :
  (run i s).2 = s ∨
  ∃ name k sc r rest,
    cmd i = Add None None None None ∧ typed i = name :: k :: sc :: r :: rest ∧
    run i s = (inr "add", after_add s name k sc r (at_time i)).
Proof.
  destruct i as [c lines now]. unfold run. destruct c; simpl; try by left.
  destruct (add_cases profile key secret region (tty s lines now))
    as [(name & k & sc & r & rest & -> & -> & -> & -> & Hl & ->) | (e & t' & -> & Ht')];
    simpl in *.
  - right. by exists name, k, sc, r, rest.
  - by left.
Qed.

(** X5: a run that changes the store is an add without arguments, with at
    least four lines typed, that succeeded: set, unset and rm never write. *)
Theorem only_add_writes (i : invocation) (s : Store) :
  (run i s).2 ≠ s →
  cmd i = Add None None None None ∧ (4 ≤ length (typed i))%nat ∧ (run i s).1 = inr "add".
Proof.
  intros Hne.
  destruct (run_cases i s) as [Heq | (name & k & sc & r & rest & Hc & Ht & Hr)]; [done|].
  rewrite Hr, Ht. repeat split; [done|simpl; lia].
Qed.

Lemma only_add_writes_witness :
  cmd second_work = Add None None None None ∧ (4 ≤ length (typed second_work))%nat ∧
  (run second_work one_work).1 = inr "add".
Proof.
  apply (only_add_writes second_work one_work). discriminate.
Defined.

Lemma run_prefix (i : invocation) (s : Store) :
  awscredential s `prefix_of` awscredential (run i s).2 ∧
  audit_log s `prefix_of` audit_log (run i s).2.
Proof.
  destruct (run_cases i s) as [-> | (name & k & sc & r & rest & _ & _ & ->)]; [done|].
  simpl. split; by eexists.
Qed.

(** X6: both tables only grow at the end: after any list of runs, each
    table starts with the rows it had before; no row is ever removed or
    rewritten. *)
Theorem runs_append_only (invs : list invocation) (s : Store) :
  awscredential s `prefix_of` awscredential (runs invs s) ∧
  audit_log s `prefix_of` audit_log (runs invs s).
Proof.
  revert s. induction invs as [|i invs IH]; intros s; [done|].
  simpl. destruct (run_prefix i s) as [H1 H2].
  destruct (IH (run i s).2) as [H3 H4].
  split; by etrans.
Qed.

Lemma run_names (i : invocation) (s : Store) :
  names (run i s).2 = (names s ++ option_list (created_name i))%list.
Proof.
  destruct i as [c lines now]. unfold run, created_name. destruct c; simpl;
    try by rewrite app_nil_r.
  destruct profile, key, secret, region;
    destruct lines as [|l1 [|l2 [|l3 [|l4 rest]]]]; simpl;
    try (by rewrite app_nil_r).
  rewrite add_prompted. unfold names. simpl. by rewrite fmap_app.
Qed.

(** X7: the profile names after a list of runs are the names before,
    followed by the first line typed in each run that is an add without
    arguments with at least four lines, in the order of the runs. *)
Theorem names_after_runs (invs : list invocation) (s : Store) :
  names (runs invs s) = (names s ++ omap created_name invs)%list.
Proof.
  revert s. induction invs as [|i invs IH]; intros s; simpl.
  - by rewrite app_nil_r.
  - rewrite IH, run_names. rewrite <-app_assoc. f_equal.
    by destruct (created_name i).
Qed.

(** X8: in every reachable store the audit log mirrors the profile table:
    event by event it carries the creation time and name of the row at
    the same position, and every event is a CREATE_PROFILE of type AWS. *)
Theorem audit_mirrors_profiles (s : Store) :
  reachable s →
  mirrored s ∧
  Forall (λ e, Audit.action e = "CREATE_PROFILE" ∧ Audit.profile_type e = "AWS")
    (audit_log s).
Proof.
  induction 1 as [|s i _ [IH1 IH2]]; [by split|].
  destruct (run_cases i s) as [-> | (name & k & sc & r & rest & _ & _ & ->)]; [done|].
  unfold mirrored in *. simpl. split.
  - by rewrite !fmap_app, IH1.
  - apply Forall_app. split; [done|]. by repeat constructor.
Qed.

Lemma audit_mirrors_profiles_witness :
  mirrored work_twice ∧
  Forall (λ e, Audit.action e = "CREATE_PROFILE" ∧ Audit.profile_type e = "AWS")
    (audit_log work_twice).
Proof.
  apply (audit_mirrors_profiles work_twice).
  unfold work_twice, one_work. apply reach_run, reach_run, reach_fresh.
Defined.

(** X9: every profile in a reachable store is as add made it: of type
    AWS, never activated (last_activated is -1) and inactive. *)
Theorem profiles_as_created (s : Store) :
  reachable s →
  Forall (λ r, AWSCredential.profile_type r = "AWS" ∧
               AWSCredential.last_activated r = (-1)%Z ∧
               AWSCredential.is_active r = false)
    (awscredential s).
Proof.
  induction 1 as [|s i _ IH]; [constructor|].
  destruct (run_cases i s) as [-> | (name & k & sc & r & rest & _ & _ & ->)]; [done|].
  simpl. apply Forall_app. split; [done|]. by repeat constructor.
Qed.

Lemma profiles_as_created_witness :
  Forall (λ r, AWSCredential.profile_type r = "AWS" ∧
               AWSCredential.last_activated r = (-1)%Z ∧
               AWSCredential.is_active r = false)
    (awscredential work_twice).
Proof.
  apply (profiles_as_created work_twice).
  unfold work_twice, one_work. apply reach_run, reach_run, reach_fresh.
Defined.

(** ** check_db: every outcome *)






(** ** The start of a run: __init__ *)

Lemma resolve_eq (w : process) :
  resolve_user_path w
  = match root_of (environ w) (system w) with
    | Some r => (inr (), set_ROOT_PATH (Some r) w)
    | None => (inl (KeyError (system w)), w)
    end.
Proof.
  unfold root_of. destruct (truthy (environ w !! "PROFILE_MANAGER_PATH")) eqn:Ht.
  - destruct (environ w !! "PROFILE_MANAGER_PATH") as [v|] eqn:Hv; [|discriminate Ht].
    apply resolve_override; [exact Hv|]. simpl in Ht. by apply bool_decide_eq_true in Ht.
  - by apply resolve_default.
Qed.

Lemma init_eq (w : process) :
  init w
  = match root_of (environ w) (system w) with
    | Some r => check_db (set_ROOT_PATH (Some r) w)
    | None => (inl (KeyError (system w)), w)
    end.
Proof.
  unfold init, mbind, M_bind. rewrite resolve_eq.
  by destruct (root_of (environ w) (system w)).
Qed.

(** X14: resolve_user_path writes nothing but ROOT_PATH, and calling it
    again gives the same result and the same state. *)
Theorem resolve_user_path_again (w : process) :
  environ (resolve_user_path w).2 = environ w ∧
  system (resolve_user_path w).2 = system w ∧
  dirs (resolve_user_path w).2 = dirs w ∧
  files (resolve_user_path w).2 = files w ∧
  DB (resolve_user_path w).2 = DB w ∧
  resolve_user_path (resolve_user_path w).2 = resolve_user_path w.
Proof.
  rewrite (resolve_eq w).
  destruct (root_of (environ w) (system w)) as [r|] eqn:Hr; simpl;
    repeat split; rewrite resolve_eq; simpl; by rewrite Hr.
Qed.

(** X15: with a non-empty override the database file is the override with
    the file name appended, no separator put in between, on every
    platform, listed in [p] or not. *)
Theorem init_override_path (w : process) (v : string) :
  environ w !! "PROFILE_MANAGER_PATH" = Some v → v ≠ "" →
  ROOT_PATH (init w).2 = Some v ∧
  database (DB (init w).2) = Some (v ++ db_file).
Proof.
  intros Hv Hne. rewrite init_eq. unfold root_of. rewrite Hv. simpl.
  rewrite bool_decide_eq_true_2 by done. split.
  - apply check_db_root.
  - apply check_db_binds.
Qed.

(** X16: without a usable override, on a platform that [p] does not
    list, __init__ stops with a KeyError on the platform name before
    check_db runs: nothing at all has changed. *)
Theorem init_unsupported (w : process) :
  truthy (environ w !! "PROFILE_MANAGER_PATH") = false →
  system w ≠ "Linux" → system w ≠ "Darwin" → system w ≠ "Windows" →
  init w = (inl (KeyError (system w)), w).
Proof.
  intros Ht H1 H2 H3. rewrite init_eq. unfold root_of. rewrite Ht.
  by rewrite p_lookup_other.
Qed.

(** X17: on Windows without a usable override the root is the entry of
    [p] as written, percent signs doubled and nothing expanded, and the
    database is bound to that root followed by the file name. *)
Theorem windows_root_literal (w : process) :
  truthy (environ w !! "PROFILE_MANAGER_PATH") = false →
  system w = "Windows" →
  ROOT_PATH (init w).2 = Some "%%userprofile%%\AppData\Local\profile-manager\" ∧
  database (DB (init w).2)
  = Some "%%userprofile%%\AppData\Local\profile-manager\profile-manager.sqlite".
Proof.
  intros Ht Hs. rewrite init_eq. unfold root_of. rewrite Ht, Hs. simpl. split.
  - apply check_db_root.
  - apply check_db_binds.
Qed.


End Machine.

(** * Concrete machines

    The properties above hold whatever rule the machine has for the
    directory of a path.  Here they are applied on a Linux machine, with
    [posix_directory], and on a Windows machine, with
    [windows_directory]. *)



Lemma unix_root_literal_witness :
  resolve_user_path bare = (inr (), set_ROOT_PATH (Some "~/.profile-manager/") bare) ∧
  format_path (ROOT_PATH (resolve_user_path bare).2)
  = "~/.profile-manager/profile-manager.sqlite" ∧
  database (DB (init posix_directory bare).2)
  = Some "~/.profile-manager/profile-manager.sqlite".
Proof.
  apply (unix_root_literal posix_directory bare); [reflexivity | left; reflexivity].
Defined.





Lemma init_override_path_witness :
  ROOT_PATH (init posix_directory overridden).2 = Some "/srv/pm" ∧
  database (DB (init posix_directory overridden).2) = Some "/srv/pmprofile-manager.sqlite".
Proof.
  apply (init_override_path posix_directory overridden "/srv/pm"); [reflexivity | discriminate].
Defined.

Lemma init_unsupported_witness :
  init posix_directory (start ∅ "FreeBSD" {[ "/srv" ]} ∅)
  = (inl (KeyError "FreeBSD"), start ∅ "FreeBSD" {[ "/srv" ]} ∅).
Proof.
  apply (init_unsupported posix_directory (start ∅ "FreeBSD" {[ "/srv" ]} ∅));
    [reflexivity | discriminate | discriminate | discriminate].
Defined.

Lemma windows_root_literal_witness :
  ROOT_PATH (init windows_directory (start ∅ "Windows" ∅ ∅)).2
  = Some "%%userprofile%%\AppData\Local\profile-manager\" ∧
  database (DB (init windows_directory (start ∅ "Windows" ∅ ∅)).2)
  = Some "%%userprofile%%\AppData\Local\profile-manager\profile-manager.sqlite".
Proof.
  apply (windows_root_literal windows_directory (start ∅ "Windows" ∅ ∅)); reflexivity.
Defined.

